(** * Programming Principles site: a model of [src/App.jsx]

    The site is one React component, [App].  It owns one piece of state
    ([activeSection], created by [useState('overview')]), builds two constant
    arrays ([principles] and [exercises]) and returns a JSX tree.  The handlers
    in that tree either call [setActiveSection] or [window.open].

    The embedding follows that shape:
    - JSX is a tree type [elem]; literal JSX text ([Txt]) is kept apart from
      the value of an expression container [{...}] ([Val]), and a literal
      attribute ([PLit]) from an expression attribute ([PExpr]);
    - event handlers are functions on the browser state [World];
    - [App] is a function from the current [activeSection] to the tree it
      returns, children of inactive tabs included (JSX is built eagerly);
    - what the tab component does with that tree is [mount]. *)

From Stdlib Require Import String Ascii List Bool Arith Lia DecimalString.
Import ListNotations.
Open Scope string_scope.
Open Scope list_scope.
Set Warnings "-register-all".

(** ** Browser state and the two effects the handlers have *)

Record World := mkWorld {
  activeSection : string;              (* the useState cell of App *)
  opened : list (string * string);     (* window.open calls so far: (url, target) *)
  storage : list (string * string)     (* what the browser keeps across a reload *)
}.

(** The setter returned by [useState]. *)
Definition setActiveSection (v : string) (w : World) : World :=
  {| activeSection := v; opened := opened w; storage := storage w |}.

(** [window.open(url, target)]: one more navigation, nothing else. *)
Definition window_open (url target : string) (w : World) : World :=
  {| activeSection := activeSection w;
     opened := opened w ++ [(url, target)];
     storage := storage w |}.

(** ** JSX trees *)

Inductive value :=
| VStr (s : string)
| VNum (n : nat).

Inductive prop :=
| PLit (s : string)                          (* attr="text" *)
| PExpr (v : value)                          (* attr={expression} *)
| PClick (f : World -> World)                (* onClick={() => ...} *)
| PChange (f : string -> World -> World).    (* onValueChange={setter} *)

Inductive elem :=
| Txt (s : string)                           (* literal JSX text *)
| Val (v : value)                            (* {expression} child *)
| El (tag : string) (props : list (string * prop)) (kids : list elem).

Definition className (s : string) : string * prop := ("className", PLit s).
Definition classExpr (s : string) : string * prop := ("className", PExpr (VStr s)).
Definition variant (s : string) : string * prop := ("variant", PLit s).
Definition size (s : string) : string * prop := ("size", PLit s).
Definition onClick (f : World -> World) : string * prop := ("onClick", PClick f).

(** ** The two static lists *)

Record Principle := mkPrinciple {
  id : string;
  name : string;
  fullName : string;
  icon : elem;
  color : string;
  description : string;
  benefits : list string
}.

Record Exercise := mkExercise {
  principle : string;
  title : string;
  language : string;
  scenario : string;
  difficulty : string
}.

Definition principles : list Principle :=
  [ {| id := "dry";
       name := "DRY";
       fullName := "Don't Repeat Yourself";
       icon := El "Target" [className "w-6 h-6"] [];
       color := "bg-blue-500";
       description := "Avoid duplication of code, logic, or data. Every piece of knowledge should have a single, unambiguous representation.";
       benefits := ["Maintainability"; "Readability"; "Reduced Bugs"; "Faster Development"] |};
    {| id := "kiss";
       name := "KISS";
       fullName := "Keep It Simple, Stupid";
       icon := El "Lightbulb" [className "w-6 h-6"] [];
       color := "bg-green-500";
       description := "Simplicity should be a key goal in design. Avoid unnecessary complexity and over-engineering.";
       benefits := ["Readability"; "Reduced Bugs"; "Faster Development"; "Easier Maintenance"] |};
    {| id := "srp";
       name := "SRP";
       fullName := "Single Responsibility Principle";
       icon := El "Shield" [className "w-6 h-6"] [];
       color := "bg-purple-500";
       description := "A class should have only one reason to change. Each module should have responsibility over a single part of functionality.";
       benefits := ["Modularity"; "Maintainability"; "Testability"; "Clarity"] |};
    {| id := "solid";
       name := "SOLID";
       fullName := "SOLID Principles";
       icon := El "Layers" [className "w-6 h-6"] [];
       color := "bg-orange-500";
       description := "Five design principles (SRP, OCP, LSP, ISP, DIP) that make software designs more understandable, flexible, and maintainable.";
       benefits := ["Robustness"; "Flexibility"; "Maintainability"; "Testability"] |} ].

Definition exercises : list Exercise :=
  [ {| principle := "DRY";
       title := "Data Validation";
       language := "Python";
       scenario := "User Registration and Profile Update";
       difficulty := "Beginner" |};
    {| principle := "DRY";
       title := "API Response Formatting";
       language := "Node.js/Next.js";
       scenario := "Consistent API Response Structure";
       difficulty := "Beginner" |};
    {| principle := "KISS";
       title := "Order Processing Logic";
       language := "Python";
       scenario := "Complex Discount Calculation";
       difficulty := "Intermediate" |};
    {| principle := "KISS";
       title := "Frontend Form Handling";
       language := "Node.js/Next.js";
       scenario := "Checkout Form Validation";
       difficulty := "Intermediate" |};
    {| principle := "SRP";
       title := "User Management";
       language := "Python";
       scenario := "Overloaded User Class";
       difficulty := "Intermediate" |};
    {| principle := "SRP";
       title := "API Request Handling";
       language := "Node.js/Next.js";
       scenario := "Overloaded API Route Handler";
       difficulty := "Intermediate" |} ].

(** [array.map((x, index) => f)]: the callback gets the element and its
    position, counted from 0. *)
Fixpoint mapi_from {A B : Type} (i : nat) (f : A -> nat -> B) (l : list A) : list B :=
  match l with
  | [] => []
  | x :: t => f x i :: mapi_from (S i) f t
  end.

Definition mapi {A B : Type} (f : A -> nat -> B) (l : list A) : list B :=
  mapi_from 0 f l.

(** The two link targets that occur in the file. *)
Definition repoURL : string := "https://github.com/prabodh-dev1/programming-principles".
Definition readmeURL : string :=
  "https://github.com/prabodh-dev1/programming-principles/blob/main/README.md".

(** ** The component

    [App] is split along the comments of the JSX ([Header], [Overview Tab],
    ...); the callbacks given to [map] are definitions of their own so that
    the theorems can name one card. *)

(** [Header] *)
Definition header : elem :=
  El "header" [className "border-b bg-white/80 backdrop-blur-sm dark:bg-slate-900/80 sticky top-0 z-50"]
   [El "div" [className "container mx-auto px-4 py-4"]
     [El "div" [className "flex items-center justify-between"]
       [El "div" [className "flex items-center space-x-3"]
          [El "div" [className "p-2 bg-gradient-to-r from-blue-500 to-purple-600 rounded-lg"]
             [El "Code" [className "w-6 h-6 text-white"] []];
           El "div" []
             [El "h1" [className "text-xl font-bold"] [Txt "Programming Principles"];
              El "p" [className "text-sm text-muted-foreground"]
                [Txt "DRY, KISS, SRP & SOLID for E-commerce"]]];
        El "div" [className "flex items-center space-x-2"]
          [El "Badge" [variant "outline"] [Txt "Interactive Exercises"];
           El "Button" [variant "outline"; size "sm";
                        onClick (fun w => window_open repoURL "_blank" w)]
             [El "Github" [className "w-4 h-4 mr-2"] [];
              Txt "View Source"]]]]].

(** Callback of [principles.map] in the Overview tab. *)
Definition overviewCard (principle : Principle) : elem :=
  El "Card" [("key", PExpr (VStr principle.(id)));
             className "group hover:shadow-lg transition-all duration-300 hover:-translate-y-1"]
   [El "CardHeader" [className "text-center"]
      [El "div" [classExpr ("w-12 h-12 " ++ principle.(color) ++
                  " rounded-lg flex items-center justify-center text-white mx-auto mb-3 group-hover:scale-110 transition-transform")]
         [principle.(icon)];
       El "CardTitle" [className "text-lg"] [Val (VStr principle.(name))];
       El "CardDescription" [className "text-sm"] [Val (VStr principle.(fullName))]];
    El "CardContent" []
      [El "p" [className "text-sm text-muted-foreground mb-4"] [Val (VStr principle.(description))];
       El "div" [className "space-y-2"]
         [El "p" [className "text-xs font-medium text-muted-foreground"] [Txt "Key Benefits:"];
          El "div" [className "flex flex-wrap gap-1"]
            (map (fun benefit =>
                    El "Badge" [("key", PExpr (VStr benefit)); variant "secondary"; className "text-xs"]
                      [Val (VStr benefit)])
                 principle.(benefits))]]].

(** [Overview Tab] *)
Definition overviewTab : elem :=
  El "TabsContent" [("value", PLit "overview"); className "space-y-8"]
   [El "div" [className "text-center space-y-4"]
      [El "h2" [className "text-4xl font-bold bg-gradient-to-r from-blue-600 to-purple-600 bg-clip-text text-transparent"]
         [Txt "Master Programming Principles"];
       El "p" [className "text-xl text-muted-foreground max-w-3xl mx-auto"]
         [Txt "Learn DRY, KISS, SRP, and SOLID principles through practical e-commerce examples in Python and Node.js/Next.js"]];
    El "div" [className "grid grid-cols-1 md:grid-cols-2 lg:grid-cols-4 gap-6"]
      (map overviewCard principles);
    El "Card" [className "bg-gradient-to-r from-blue-50 to-purple-50 dark:from-blue-950/20 dark:to-purple-950/20 border-blue-200 dark:border-blue-800"]
      [El "CardContent" [className "p-8"]
         [El "div" [className "flex items-center justify-between"]
            [El "div" []
               [El "h3" [className "text-2xl font-bold mb-2"] [Txt "Ready to Start Learning?"];
                El "p" [className "text-muted-foreground mb-4"]
                  [Txt "Explore interactive exercises with real-world e-commerce scenarios"]];
             El "Button" [size "lg";
                          onClick (fun w => setActiveSection "exercises" w);
                          className "bg-gradient-to-r from-blue-500 to-purple-600 hover:from-blue-600 hover:to-purple-700"]
               [Txt "Start Exercises";
                El "ArrowRight" [className "w-4 h-4 ml-2"] []]]]]].

(** Callback of [principles.map] in the Principles tab. *)
Definition principleCard (principle : Principle) (index : nat) : elem :=
  El "Card" [("key", PExpr (VStr principle.(id))); className "overflow-hidden"]
   [El "CardHeader" [className "bg-gradient-to-r from-slate-50 to-slate-100 dark:from-slate-800 dark:to-slate-700"]
      [El "div" [className "flex items-center space-x-4"]
         [El "div" [classExpr ("w-12 h-12 " ++ principle.(color) ++
                     " rounded-lg flex items-center justify-center text-white")]
            [principle.(icon)];
          El "div" []
            [El "CardTitle" [className "text-xl"]
               [Val (VStr principle.(fullName)); Txt " ("; Val (VStr principle.(name)); Txt ")"];
             El "CardDescription" []
               [Txt "Essential principle #"; Val (VNum (index + 1))]]]];
    El "CardContent" [className "p-6"]
      [El "p" [className "text-muted-foreground mb-6"] [Val (VStr principle.(description))];
       El "div" [className "grid md:grid-cols-2 gap-6"]
         [El "div" []
            [El "h4" [className "font-semibold mb-3 flex items-center"]
               [El "Target" [className "w-4 h-4 mr-2 text-blue-500"] [];
                Txt "Key Benefits"];
             El "ul" [className "space-y-2"]
               (map (fun benefit =>
                       El "li" [("key", PExpr (VStr benefit)); className "flex items-center text-sm"]
                         [El "div" [className "w-2 h-2 bg-green-500 rounded-full mr-3"] [];
                          Val (VStr benefit)])
                    principle.(benefits))];
          El "div" []
            [El "h4" [className "font-semibold mb-3 flex items-center"]
               [El "BookOpen" [className "w-4 h-4 mr-2 text-purple-500"] [];
                Txt "E-commerce Applications"];
             El "ul" [className "space-y-2 text-sm text-muted-foreground"]
               [El "li" [] [Txt "• User management systems"];
                El "li" [] [Txt "• Product catalog handling"];
                El "li" [] [Txt "• Order processing workflows"];
                El "li" [] [Txt "• Payment gateway integration"]]]]]].

(** [Principles Tab] *)
Definition principlesTab : elem :=
  El "TabsContent" [("value", PLit "principles"); className "space-y-6"]
   [El "div" [className "text-center space-y-4 mb-8"]
      [El "h2" [className "text-3xl font-bold"] [Txt "Programming Principles"];
       El "p" [className "text-muted-foreground max-w-2xl mx-auto"]
         [Txt "Deep dive into each principle with detailed explanations and real-world applications"]];
    El "div" [className "grid gap-6"]
      (mapi principleCard principles)].

(** Callback of [exercises.map] in the Exercises tab. *)
Definition exerciseCard (exercise : Exercise) (index : nat) : elem :=
  El "Card" [("key", PExpr (VNum index)); className "group hover:shadow-md transition-all duration-200"]
   [El "CardContent" [className "p-6"]
      [El "div" [className "flex items-center justify-between"]
         [El "div" [className "flex items-center space-x-4"]
            [El "div" [className "flex items-center space-x-2"]
               [El "Badge" [variant "outline"; className "font-mono"]
                  [Val (VStr exercise.(principle))];
                El "Badge" [variant "secondary"]
                  [Val (VStr exercise.(language))];
                El "Badge" [("variant", PExpr (VStr (if exercise.(difficulty) =? "Beginner"
                                                     then "default" else "destructive")));
                            className "text-xs"]
                  [Val (VStr exercise.(difficulty))]]];
          El "Button" [variant "ghost"; size "sm";
                       className "opacity-0 group-hover:opacity-100 transition-opacity";
                       onClick (fun w => window_open readmeURL "_blank" w)]
            [El "ExternalLink" [className "w-4 h-4"] []]];
       El "div" [className "mt-4"]
         [El "h3" [className "font-semibold text-lg mb-2"] [Val (VStr exercise.(title))];
          El "p" [className "text-muted-foreground text-sm"] [Val (VStr exercise.(scenario))]]]].

(** [Exercises Tab] *)
Definition exercisesTab : elem :=
  El "TabsContent" [("value", PLit "exercises"); className "space-y-6"]
   [El "div" [className "text-center space-y-4 mb-8"]
      [El "h2" [className "text-3xl font-bold"] [Txt "Interactive Exercises"];
       El "p" [className "text-muted-foreground max-w-2xl mx-auto"]
         [Txt "Practice with real-world e-commerce scenarios in Python and Node.js/Next.js"]];
    El "div" [className "grid gap-4"]
      (mapi exerciseCard exercises);
    El "Card" [className "bg-gradient-to-r from-green-50 to-blue-50 dark:from-green-950/20 dark:to-blue-950/20 border-green-200 dark:border-green-800"]
      [El "CardContent" [className "p-6 text-center"]
         [El "h3" [className "text-xl font-bold mb-2"] [Txt "Complete Exercise Collection"];
          El "p" [className "text-muted-foreground mb-4"]
            [Txt "Access the full document with detailed explanations, code examples, and solutions"];
          El "Button" [variant "outline"; className "mr-4";
                       onClick (fun w => window_open readmeURL "_blank" w)]
            [El "BookOpen" [className "w-4 h-4 mr-2"] [];
             Txt "View Full Document"];
          El "Button" [onClick (fun w => window_open repoURL "_blank" w)]
            [El "Github" [className "w-4 h-4 mr-2"] [];
             Txt "Download Examples"]]]].

(** One entry of the two reading lists of the Resources tab. *)
Definition resourceItem (heading line : string) : elem :=
  El "div" [className "p-3 border rounded-lg"]
   [El "h4" [className "font-medium"] [Txt heading];
    El "p" [className "text-sm text-muted-foreground"] [Txt line]].

(** [Resources Tab] *)
Definition resourcesTab : elem :=
  El "TabsContent" [("value", PLit "resources"); className "space-y-6"]
   [El "div" [className "text-center space-y-4 mb-8"]
      [El "h2" [className "text-3xl font-bold"] [Txt "Additional Resources"];
       El "p" [className "text-muted-foreground max-w-2xl mx-auto"]
         [Txt "Further reading and tools to deepen your understanding"]];
    El "div" [className "grid md:grid-cols-2 gap-6"]
      [El "Card" []
         [El "CardHeader" []
            [El "CardTitle" [className "flex items-center"]
               [El "BookOpen" [className "w-5 h-5 mr-2 text-blue-500"] [];
                Txt "Recommended Reading"]];
          El "CardContent" [className "space-y-4"]
            [El "div" [className "space-y-3"]
               [resourceItem "Clean Code" "by Robert C. Martin";
                resourceItem "The Pragmatic Programmer" "by Andrew Hunt & David Thomas";
                resourceItem "Design Patterns" "by Gang of Four"]]];
       El "Card" []
         [El "CardHeader" []
            [El "CardTitle" [className "flex items-center"]
               [El "Code" [className "w-5 h-5 mr-2 text-green-500"] [];
                Txt "Tools & Frameworks"]];
          El "CardContent" [className "space-y-4"]
            [El "div" [className "space-y-3"]
               [resourceItem "ESLint" "Code quality and consistency";
                resourceItem "Prettier" "Code formatting";
                resourceItem "SonarQube" "Code quality analysis"]]]];
    El "Card" []
      [El "CardHeader" []
         [El "CardTitle" [] [Txt "About This Project"]];
       El "CardContent" []
         [El "p" [className "text-muted-foreground mb-4"]
            [Txt "This interactive guide was created to help developers understand and apply fundamental programming principles through practical e-commerce examples. The exercises are designed to be hands-on and immediately applicable to real-world development scenarios."];
          El "Separator" [className "my-4"] [];
          El "div" [className "flex items-center justify-between"]
            [El "div" [className "text-sm text-muted-foreground"]
               [Txt "Created with React, Tailwind CSS, and shadcn/ui"];
             El "div" [className "flex space-x-2"]
               [El "Badge" [variant "outline"] [Txt "Open Source"];
                El "Badge" [variant "outline"] [Txt "Educational"]]]]]].

(** [Footer] *)
Definition footer : elem :=
  El "footer" [className "border-t bg-white/80 backdrop-blur-sm dark:bg-slate-900/80 mt-16"]
   [El "div" [className "container mx-auto px-4 py-8"]
      [El "div" [className "text-center text-muted-foreground"]
         [El "p" [] [Txt "© 2024 Programming Principles Guide. Built for educational purposes."]]]].

(** [Main Content]: the [Tabs] element, controlled by [activeSection], with
    the setter itself as [onValueChange]. *)
Definition mainContent (activeSection : string) : elem :=
  El "main" [className "container mx-auto px-4 py-8"]
   [El "Tabs" [("value", PExpr (VStr activeSection));
               ("onValueChange", PChange setActiveSection);
               className "w-full"]
      [El "TabsList" [className "grid w-full grid-cols-4 mb-8"]
         [El "TabsTrigger" [("value", PLit "overview")] [Txt "Overview"];
          El "TabsTrigger" [("value", PLit "principles")] [Txt "Principles"];
          El "TabsTrigger" [("value", PLit "exercises")] [Txt "Exercises"];
          El "TabsTrigger" [("value", PLit "resources")] [Txt "Resources"]];
       overviewTab;
       principlesTab;
       exercisesTab;
       resourcesTab]].

(** What [App] returns when its state cell holds [activeSection]. *)
Definition App (activeSection : string) : elem :=
  El "div" [className "min-h-screen bg-gradient-to-br from-slate-50 to-slate-100 dark:from-slate-900 dark:to-slate-800"]
   [header; mainContent activeSection; footer].

(** [useState('overview')]: the state cell of a freshly mounted [App]. *)
Definition initialSection : string := "overview".

(** ** Reading a tree *)

Definition tagOf (e : elem) : string :=
  match e with
  | El tag _ _ => tag
  | _ => EmptyString
  end.

Definition propsOf (e : elem) : list (string * prop) :=
  match e with
  | El _ props _ => props
  | _ => []
  end.

Definition kidsOf (e : elem) : list elem :=
  match e with
  | El _ _ kids => kids
  | _ => []
  end.

Definition getProp (key : string) (props : list (string * prop)) : option prop :=
  match find (fun kv => fst kv =? key) props with
  | Some kv => Some (snd kv)
  | None => None
  end.

(** A string-valued attribute, written as a literal or as an expression. *)
Definition stringProp (key : string) (e : elem) : option string :=
  match getProp key (propsOf e) with
  | Some (PLit s) => Some s
  | Some (PExpr (VStr s)) => Some s
  | _ => None
  end.

Definition valueOf (e : elem) : option string := stringProp "value" e.

Definition option_eqb (a b : option string) : bool :=
  match a, b with
  | Some x, Some y => x =? y
  | None, None => true
  | _, _ => false
  end.

(** The text React writes for a string or a number child. *)
Definition valueText (v : value) : string :=
  match v with
  | VStr s => s
  | VNum n => NilEmpty.string_of_uint (Nat.to_uint n)
  end.

Fixpoint textContent (e : elem) : string :=
  match e with
  | Txt s => s
  | Val v => valueText v
  | El _ _ kids => String.concat EmptyString (map textContent kids)
  end.

(** The element and everything below it, in document order. *)
Fixpoint subtrees (e : elem) : list elem :=
  e :: match e with
       | El _ _ kids => flat_map subtrees kids
       | _ => []
       end.

Definition findTag (tag : string) (e : elem) : list elem :=
  filter (fun x => tagOf x =? tag) (subtrees e).

Definition findTagIn (tag : string) (es : list elem) : list elem :=
  flat_map (findTag tag) es.

(** The expression-valued children below an element: what the tree shows that
    was computed at render time rather than typed into the JSX. *)
Fixpoint exprLeaves (e : elem) : list value :=
  match e with
  | Txt _ => []
  | Val v => [v]
  | El _ _ kids => flat_map exprLeaves kids
  end.

(** ** The tab component and the controls of a page *)

(** Modelled from the spec: the [Tabs], [TabsList], [TabsTrigger] and
    [TabsContent] components come from [components/ui/tabs.jsx], which is not
    among the sources.  Section 4.1 gives their contract: of the content
    panels of a [Tabs] exactly the one whose value is the [Tabs]' current
    value is rendered, the others are not.  [mountIn active e] is what is
    rendered of [e] below a [Tabs] whose current value is [active]. *)
Fixpoint mountIn (active : option string) (e : elem) : list elem :=
  match e with
  | El tag props kids =>
      let active' := if tag =? "Tabs" then valueOf e else active in
      if (tag =? "TabsContent") && negb (option_eqb (valueOf e) active')
      then []
      else [El tag props (flat_map (mountIn active') kids)]
  | _ => [e]
  end.

Definition mount (e : elem) : list elem := mountIn None e.

(** The page the user sees when the state cell holds [activeSection]. *)
Definition view (activeSection : string) : list elem := mount (App activeSection).

(** A control of the page: the element the user activates and what
    activating it does to the browser state. *)
Record control := mkControl {
  target : elem;
  action : World -> World
}.

Definition label (c : control) : string := textContent (target c).

Definition isTrigger (c : control) : bool := tagOf (target c) =? "TabsTrigger".

Definition changeOf (e : elem) : option (string -> World -> World) :=
  match getProp "onValueChange" (propsOf e) with
  | Some (PChange f) => Some f
  | _ => None
  end.

Definition clickOf (e : elem) : option (World -> World) :=
  match getProp "onClick" (propsOf e) with
  | Some (PClick f) => Some f
  | _ => None
  end.

(** Modelled from the spec: how a selection reaches [onValueChange] is
    decided by the same missing [components/ui/tabs.jsx].  Section 4.1:
    selecting a tab sets the active view synchronously, so selecting a
    [TabsTrigger] calls the [onValueChange] of the [Tabs] around it with the
    trigger's value.  An element with an [onClick] attribute runs it when it
    is activated (section 4.3).  [controlsIn change e] lists the controls
    below [e], in document order, [change] being the [onValueChange] of the
    [Tabs] around [e], if any. *)
Fixpoint controlsIn (change : option (string -> World -> World)) (e : elem) : list control :=
  match e with
  | El tag props kids =>
      let change' := if tag =? "Tabs" then changeOf e else change in
      let here :=
        if tag =? "TabsTrigger" then
          match change', valueOf e with
          | Some f, Some v => [mkControl e (f v)]
          | _, _ => []
          end
        else
          match clickOf e with
          | Some f => [mkControl e f]
          | None => []
          end in
      here ++ flat_map (controlsIn change') kids
  | _ => []
  end.

Definition controls (es : list elem) : list control :=
  flat_map (controlsIn None) es.

(** ** Events *)

(** A page load: the component is mounted afresh, [useState] gives the cell
    its initial value.  Nothing of [storage] is looked at. *)
Definition load (w : World) : World :=
  {| activeSection := initialSection; opened := opened w; storage := storage w |}.

(** The world when the site is first opened in a browser whose persistent
    part is [st]. *)
Definition start (st : list (string * string)) : World :=
  load {| activeSection := EmptyString; opened := []; storage := st |}.

Inductive event :=
| Activate (n : nat)     (* the user activates the n-th control of the page *)
| Reload.                (* the user reloads the page *)

Definition step (w : World) (ev : event) : World :=
  match ev with
  | Activate n =>
      match nth_error (controls (view (activeSection w))) n with
      | Some c => action c w
      | None => w
      end
  | Reload => load w
  end.

Definition run (w : World) (evs : list event) : World := fold_left step evs w.

(** The closed set of tab identifiers the claims speak of. *)
Definition tabIdentifiers : list string := ["overview"; "principles"; "exercises"; "resources"].

(** ** Queries and predicates of the statements *)

(** One content panel below a [Tabs] whose value is [s]. *)
Definition panel (s : string) (t : elem) : list elem :=
  if option_eqb (valueOf t) (Some s) then [t] else [].

(** The [Tabs] element of [App] and its four panels. *)
Definition tabsElement (s : string) : elem := hd (Txt EmptyString) (kidsOf (mainContent s)).
Definition tabsList : elem := hd (Txt EmptyString) (kidsOf (tabsElement EmptyString)).
Definition panels : list elem := [overviewTab; principlesTab; exercisesTab; resourcesTab].

(** The label of each external-link control and the address written at it. *)
Definition linkTargets : list (string * string) :=
  [("View Source", repoURL); (EmptyString, readmeURL);
   ("View Full Document", readmeURL); ("Download Examples", repoURL)].

(** The controls of the source tree: what they are and what they do.  [s] is
    the current value of the state cell. *)
Inductive controlSpec (s : string) (c : control) : Prop :=
| TriggerControl (v : string) :
    In v tabIdentifiers ->
    tagOf (target c) = "TabsTrigger" ->
    valueOf (target c) = Some v ->
    In (label c) ["Overview"; "Principles"; "Exercises"; "Resources"] ->
    action c = setActiveSection v ->
    controlSpec s c
| StartControl :
    s = "overview" ->
    tagOf (target c) = "Button" ->
    label c = "Start Exercises" ->
    action c = setActiveSection "exercises" ->
    controlSpec s c
| LinkControl (url : string) :
    tagOf (target c) = "Button" ->
    In (label c, url) linkTargets ->
    (label c = EmptyString \/ label c = "View Full Document" \/ label c = "Download Examples" ->
     s = "exercises") ->
    action c = window_open url "_blank" ->
    controlSpec s c.

(** The panels that are part of the mounted page. *)
Definition shownPanels (s : string) : list elem := findTagIn "TabsContent" (view s).

(** The labels of the first list of a card: on a principle card, the
    benefits. *)
Definition benefitLabels (card : elem) : list string :=
  map textContent (kidsOf (hd (Txt EmptyString) (findTag "ul" card))).

(** The element of the page that holds the exercise cards. *)
Definition exerciseGrid (page : list elem) : list elem :=
  filter (fun e => match stringProp "className" e with
                   | Some cl => cl =? "grid gap-4"
                   | None => false
                   end)
         (flat_map subtrees page).

(** The badge of an exercise card that shows the difficulty. *)
Definition difficultyBadge (card : elem) : elem :=
  nth 2 (findTag "Badge" card) (Txt EmptyString).

(** The strings stored in a record. *)
Definition principleFields (p : Principle) : list string :=
  [p.(id); p.(name); p.(fullName); p.(color); p.(description)] ++ p.(benefits).

Definition exerciseFields (e : Exercise) : list string :=
  [e.(principle); e.(title); e.(language); e.(scenario); e.(difficulty)].

(** The expression-valued attributes below an element, with their names. *)
Fixpoint exprAttrs (e : elem) : list (string * value) :=
  match e with
  | El _ props kids =>
      flat_map (fun kv => match snd kv with
                          | PExpr v => [(fst kv, v)]
                          | _ => []
                          end) props
      ++ flat_map exprAttrs kids
  | _ => []
  end.

(** How many of the events activate a control. *)
Fixpoint activations (evs : list event) : nat :=
  match evs with
  | [] => 0
  | Activate _ :: t => S (activations t)
  | Reload :: t => activations t
  end.

(** The [key] attribute of an element of a rendered list. *)
Definition keyOf (e : elem) : option value :=
  match getProp "key" (propsOf e) with
  | Some (PExpr v) => Some v
  | _ => None
  end.

(** The icon components the file imports from [lucide-react]; each is used
    without children. *)
Definition lucideIcons : list string :=
  ["BookOpen"; "Code"; "Lightbulb"; "Target"; "Layers"; "Shield";
   "ArrowRight"; "Github"; "ExternalLink"].

Definition isIcon (e : elem) : bool :=
  match e with
  | El tag _ [] => existsb (String.eqb tag) lucideIcons
  | _ => false
  end.



(** * Theorems *)

Ltac in_cases H := repeat (destruct H as [H|H]; [subst|]); try contradiction.

(** ** The shape of the mounted page *)

#[local] Arguments String.eqb : simpl nomatch.

Lemma mountIn_overviewTab (s : string) : mountIn (Some s) overviewTab = panel s overviewTab.
Proof. unfold panel, overviewTab; cbn. destruct ("overview" =? s); reflexivity. Qed.

Lemma mountIn_principlesTab (s : string) : mountIn (Some s) principlesTab = panel s principlesTab.
Proof. unfold panel, principlesTab; cbn. destruct ("principles" =? s); reflexivity. Qed.

Lemma mountIn_exercisesTab (s : string) : mountIn (Some s) exercisesTab = panel s exercisesTab.
Proof. unfold panel, exercisesTab; cbn. destruct ("exercises" =? s); reflexivity. Qed.

Lemma mountIn_resourcesTab (s : string) : mountIn (Some s) resourcesTab = panel s resourcesTab.
Proof. unfold panel, resourcesTab; cbn. destruct ("resources" =? s); reflexivity. Qed.

(** The mounted page is [App] with the panels of the other tabs left out. *)
Lemma view_shape (s : string) :
  view s =
  [El "div" (propsOf (App s))
     [header;
      El "main" (propsOf (mainContent s))
        [El "Tabs" (propsOf (tabsElement s)) (tabsList :: flat_map (panel s) panels)];
      footer]].
Proof.
  unfold view, mount, App, mainContent.
  cbn -[header footer overviewTab principlesTab exercisesTab resourcesTab].
  rewrite mountIn_overviewTab, mountIn_principlesTab, mountIn_exercisesTab, mountIn_resourcesTab.
  reflexivity.
Qed.

(** ** The controls of the page *)

(** The controls are those of the header, the four triggers and those of the
    panel that is shown. *)
Lemma controls_view (s : string) :
  controls (view s) =
  controlsIn None header ++
  controlsIn (Some setActiveSection) tabsList ++
  flat_map (controlsIn (Some setActiveSection)) (flat_map (panel s) panels).
Proof.
  rewrite view_shape. unfold controls.
  cbn -[header footer tabsList panel panels].
  change (controlsIn None footer) with (@nil control).
  rewrite !app_nil_r. reflexivity.
Qed.

(** A panel is shown exactly when its value is the current one. *)
Lemma in_shown_panels (s : string) (t : elem) :
  In t (flat_map (panel s) panels) <-> In t panels /\ valueOf t = Some s.
Proof.
  rewrite in_flat_map. unfold panel. split.
  - intros (p & Hp & Ht).
    destruct (valueOf p) as [v|] eqn:Hv; cbn in Ht; [|contradiction].
    destruct (String.eqb_spec v s) as [->|]; [|contradiction].
    destruct Ht as [<-|[]]. auto.
  - intros (Hp & Hv). exists t. rewrite Hv. cbn. rewrite String.eqb_refl.
    split; [assumption | left; reflexivity].
Qed.

Lemma controls_spec (s : string) (c : control) :
  In c (controls (view s)) -> controlSpec s c.
Proof.
  rewrite controls_view, !in_app_iff, in_flat_map.
  intros [H|[H|(t & Ht & H)]].
  - cbn in H. in_cases H.
    apply LinkControl with (url := repoURL); cbn; auto; intuition discriminate.
  - cbn in H. in_cases H.
    + apply TriggerControl with (v := "overview"); cbn; auto.
    + apply TriggerControl with (v := "principles"); cbn; auto.
    + apply TriggerControl with (v := "exercises"); cbn; auto.
    + apply TriggerControl with (v := "resources"); cbn; auto 6.
  - apply in_shown_panels in Ht. destruct Ht as (Ht & Hv).
    cbn in Ht. in_cases Ht; cbn in Hv; injection Hv as <-; cbn in H; in_cases H.
    + apply StartControl; reflexivity.
    + apply LinkControl with (url := readmeURL); cbn; auto.
    + apply LinkControl with (url := readmeURL); cbn; auto.
    + apply LinkControl with (url := readmeURL); cbn; auto.
    + apply LinkControl with (url := readmeURL); cbn; auto.
    + apply LinkControl with (url := readmeURL); cbn; auto.
    + apply LinkControl with (url := readmeURL); cbn; auto.
    + apply LinkControl with (url := readmeURL); cbn; auto.
    + apply LinkControl with (url := repoURL); cbn; auto 6.
Qed.

Lemma trigger_available (s v : string) :
  In v tabIdentifiers ->
  exists c, In c (controls (view s)) /\ isTrigger c = true /\ valueOf (target c) = Some v.
Proof.
  intros Hv. rewrite controls_view.
  cbn in Hv. in_cases Hv; eexists; rewrite !in_app_iff; cbn.
  - split; [right; left; left; reflexivity | split; reflexivity].
  - split; [right; left; right; left; reflexivity | split; reflexivity].
  - split; [right; left; do 2 right; left; reflexivity | split; reflexivity].
  - split; [right; left; do 3 right; left; reflexivity | split; reflexivity].
Qed.

Lemma trigger_action (s : string) (c : control) :
  In c (controls (view s)) -> isTrigger c = true ->
  exists v, In v tabIdentifiers /\ valueOf (target c) = Some v /\ action c = setActiveSection v.
Proof.
  intros Hc Ht. destruct (controls_spec s c Hc) as [v Hv Htag Hval _ Hact|_ Htag _ _|url Htag _ _ _].
  - exists v; auto.
  - unfold isTrigger in Ht; rewrite Htag in Ht; discriminate.
  - unfold isTrigger in Ht; rewrite Htag in Ht; discriminate.
Qed.

(** What activating any control of the page leaves alone. *)
Lemma action_frame (s : string) (c : control) (w : World) :
  In c (controls (view s)) ->
  storage (action c w) = storage w /\
  (activeSection (action c w) = activeSection w \/
   In (activeSection (action c w)) tabIdentifiers) /\
  (opened (action c w) = opened w \/
   exists url, opened (action c w) = opened w ++ [(url, "_blank")]).
Proof.
  intros Hc.
  destruct (controls_spec s c Hc) as [v Hv _ _ _ Hact|_ _ _ Hact|url _ _ _ Hact];
    rewrite Hact; cbn; (split; [reflexivity|]).
  - auto.
  - split; [right; auto 6 | left; reflexivity].
  - split; [left; reflexivity | right; eauto].
Qed.

Lemma step_storage (w : World) (ev : event) : storage (step w ev) = storage w.
Proof.
  destruct ev as [n|]; cbn; [|reflexivity].
  destruct (nth_error _ n) as [c|] eqn:Hn; [|reflexivity].
  apply (action_frame (activeSection w)). eapply nth_error_In; eassumption.
Qed.

Lemma step_activeSection (w : World) (ev : event) :
  activeSection (step w ev) = activeSection w \/
  In (activeSection (step w ev)) tabIdentifiers.
Proof.
  destruct ev as [n|]; cbn; [|auto].
  destruct (nth_error _ n) as [c|] eqn:Hn; [|auto].
  apply (action_frame (activeSection w)). eapply nth_error_In; eassumption.
Qed.

Lemma run_snoc (w : World) (evs : list event) (ev : event) :
  run w (evs ++ [ev]) = step (run w evs) ev.
Proof. unfold run. rewrite fold_left_app. reflexivity. Qed.

Lemma run_storage (w : World) (evs : list event) : storage (run w evs) = storage w.
Proof.
  revert w. induction evs as [|ev evs IH]; intros w; cbn; [reflexivity|].
  unfold run in IH. rewrite IH. apply step_storage.
Qed.

Lemma run_activeSection (w : World) (evs : list event) :
  In (activeSection w) tabIdentifiers -> In (activeSection (run w evs)) tabIdentifiers.
Proof.
  revert w. induction evs as [|ev evs IH]; intros w Hw; cbn; [assumption|].
  apply IH. destruct (step_activeSection w ev) as [H|H]; [rewrite H|]; assumption.
Qed.

Lemma shownPanels_tab (v : string) :
  In v tabIdentifiers ->
  shownPanels v = filter (fun t => option_eqb (valueOf t) (Some v)) panels /\
  map valueOf (shownPanels v) = [Some v].
Proof.
  intros Hv. cbn in Hv. in_cases Hv; split; vm_compute; reflexivity.
Qed.

(** ** Tab navigation *)

(** C1.  For each of the four tab identifiers [v] and from any state [w]: the
    page has a trigger for [v]; selecting it puts [v] into the state cell;
    the page rendered then contains, of the four content panels that [App]
    returns, exactly the one whose value is [v], and none of the other three
    occurs anywhere in it. *)
Theorem selecting_a_tab_shows_its_view (v : string) (w : World) :
  In v tabIdentifiers ->
  (exists c, In c (controls (view (activeSection w))) /\
             isTrigger c = true /\ valueOf (target c) = Some v) /\
  (forall c, In c (controls (view (activeSection w))) ->
             isTrigger c = true -> valueOf (target c) = Some v ->
     let w' := action c w in
     activeSection w' = v /\
     findTag "TabsContent" (App (activeSection w')) = panels /\
     shownPanels (activeSection w') =
       filter (fun t => option_eqb (valueOf t) (Some v)) panels /\
     map valueOf (shownPanels (activeSection w')) = [Some v] /\
     (forall t, In t panels -> valueOf t <> Some v ->
                ~ In t (flat_map subtrees (view (activeSection w'))))).
Proof.
  intros Hv. split; [apply trigger_available; assumption|].
  intros c Hc Ht Hval w'.
  destruct (trigger_action _ _ Hc Ht) as (v' & _ & Hval' & Hact).
  assert (v' = v) by congruence; subst v'.
  assert (Hw : activeSection w' = v) by (unfold w'; rewrite Hact; reflexivity).
  rewrite Hw. destruct (shownPanels_tab v Hv) as (Hshown & Hvals).
  split; [reflexivity|]. split; [reflexivity|].
  repeat split; try assumption.
  intros t Ht' Hne Hin.
  assert (Hin' : In t (shownPanels v)).
  { unfold shownPanels, findTagIn. rewrite in_flat_map in *.
    destruct Hin as (r & Hr & Hin). exists r. split; [assumption|].
    unfold findTag. apply filter_In. split; [assumption|].
    cbn in Ht'. in_cases Ht'; reflexivity. }
  assert (Hv' : In (valueOf t) (map valueOf (shownPanels v))) by (apply in_map; assumption).
  rewrite Hvals in Hv'. destruct Hv' as [Hv'|[]]. congruence.
Qed.

Lemma selecting_a_tab_shows_its_view_witness :
  let w := start [] in
  exists c, nth_error (controls (view (activeSection w))) 2 = Some c /\
            activeSection (action c w) = "principles" /\
            map valueOf (shownPanels (activeSection (action c w))) = [Some "principles"].
Proof.
  intros w.
  assert (Hv : In "principles" tabIdentifiers) by (cbn; auto).
  destruct (nth_error (controls (view (activeSection w))) 2) as [c|] eqn:Hc;
    [|vm_compute in Hc; discriminate].
  exists c. split; [reflexivity|].
  assert (Hval : valueOf (target c) = Some "principles")
    by (vm_compute in Hc; injection Hc as <-; reflexivity).
  assert (Htr : isTrigger c = true)
    by (vm_compute in Hc; injection Hc as <-; reflexivity).
  destruct (proj2 (selecting_a_tab_shows_its_view "principles" w Hv) c
              (nth_error_In _ _ Hc) Htr Hval) as (H1 & _ & _ & H3 & _).
  split; assumption.
Defined.

(** C2.  The Overview page has exactly one control labelled
    [Start Exercises]; it is not a tab trigger; activating it puts
    [exercises] into the state cell, and the page then shows the Exercises
    panel.  In whatever state, a control that is not a tab trigger and
    changes the state cell is that button on the Overview page. *)
Theorem start_exercises_opens_exercises :
  (exists c,
     filter (fun c => label c =? "Start Exercises") (controls (view "overview")) = [c] /\
     isTrigger c = false /\
     forall w, activeSection (action c w) = "exercises" /\
               map valueOf (shownPanels (activeSection (action c w))) = [Some "exercises"]) /\
  (forall s c w,
     In c (controls (view s)) -> isTrigger c = false ->
     activeSection (action c w) <> activeSection w ->
     s = "overview" /\ label c = "Start Exercises" /\
     activeSection (action c w) = "exercises").
Proof.
  split.
  - eexists. split; [vm_compute; reflexivity|].
    split; [reflexivity|]. intros w. split; vm_compute; reflexivity.
  - intros s c w Hc Ht Hchg.
    destruct (controls_spec s c Hc) as [v _ Htag _ _ _|Hs _ Hl Hact|url _ _ _ Hact].
    + unfold isTrigger in Ht. rewrite Htag in Ht. discriminate.
    + rewrite Hact. auto.
    + rewrite Hact in Hchg. cbn in Hchg. congruence.
Qed.

Lemma start_exercises_opens_exercises_witness :
  let w := start [] in
  exists c, nth_error (controls (view (activeSection w))) 5 = Some c /\
            label c = "Start Exercises" /\ activeSection (action c w) = "exercises".
Proof.
  intros w.
  destruct (nth_error (controls (view (activeSection w))) 5) as [c|] eqn:Hc;
    [|vm_compute in Hc; discriminate].
  exists c. split; [reflexivity|].
  assert (Htr : isTrigger c = false)
    by (vm_compute in Hc; injection Hc as <-; reflexivity).
  assert (Hchg : activeSection (action c w) <> activeSection w)
    by (vm_compute in Hc; injection Hc as <-; discriminate).
  exact (proj2 (proj2 start_exercises_opens_exercises _ c w
                  (nth_error_In _ _ Hc) Htr Hchg)).
Defined.

(** ** External links *)

(** C5.  The Exercises page carries all the external-link controls: the
    header button, one button per exercise card, and the two buttons of the
    collection card.  On any page, activating a control with one of these
    labels adds exactly one navigation, in a new tab, to the address written
    at that control: https://github.com/prabodh-dev1/programming-principles
    for [View Source] and [Download Examples], and
    https://github.com/prabodh-dev1/programming-principles/blob/main/README.md
    for the card links and [View Full Document].  The log entry is the only
    change of the state: the state cell and the stored data are as before,
    the page rendered afterwards is the page rendered before, and the cards
    it builds from [principles] and [exercises] are those of the two lists
    as written (the lists are constants of [App], outside the state the
    handlers act on).  From the first load, on the Exercises page, one
    activation of the header link, of a card link, of [View Full Document]
    and of [Download Examples] gives the four logs listed. *)
Theorem external_link_opens_its_address :
  map label (filter (fun c => negb (isTrigger c)) (controls (view "exercises"))) =
    ["View Source"; EmptyString; EmptyString; EmptyString; EmptyString; EmptyString;
     EmptyString; "View Full Document"; "Download Examples"] /\
  map (fun n => opened (step (setActiveSection "exercises" (start [])) (Activate n)))
      [0; 5; 11; 12] =
    [[("https://github.com/prabodh-dev1/programming-principles", "_blank")];
     [("https://github.com/prabodh-dev1/programming-principles/blob/main/README.md", "_blank")];
     [("https://github.com/prabodh-dev1/programming-principles/blob/main/README.md", "_blank")];
     [("https://github.com/prabodh-dev1/programming-principles", "_blank")]] /\
  (forall s c w,
     In c (controls (view s)) ->
     In (label c) ["View Source"; EmptyString; "View Full Document"; "Download Examples"] ->
     exists url,
       In (label c, url)
          [("View Source", "https://github.com/prabodh-dev1/programming-principles");
           (EmptyString,
            "https://github.com/prabodh-dev1/programming-principles/blob/main/README.md");
           ("View Full Document",
            "https://github.com/prabodh-dev1/programming-principles/blob/main/README.md");
           ("Download Examples", "https://github.com/prabodh-dev1/programming-principles")] /\
       In (label c, url) linkTargets /\
       (url = repoURL \/ url = readmeURL) /\
       action c w = {| activeSection := activeSection w;
                       opened := opened w ++ [(url, "_blank")];
                       storage := storage w |} /\
       opened (action c w) = opened w ++ [(url, "_blank")] /\
       activeSection (action c w) = activeSection w /\
       storage (action c w) = storage w /\
       view (activeSection (action c w)) = view (activeSection w) /\
       (activeSection w = "overview" ->
        firstn 4 (findTagIn "Card" (view (activeSection (action c w)))) =
          map overviewCard principles) /\
       (activeSection w = "principles" ->
        findTagIn "Card" (view (activeSection (action c w))) =
          mapi principleCard principles) /\
       (activeSection w = "exercises" ->
        map kidsOf (exerciseGrid (view (activeSection (action c w)))) =
          [mapi exerciseCard exercises])).
Proof.
  split; [vm_compute; reflexivity|].
  split; [vm_compute; reflexivity|].
  intros s c w Hc Hl.
  destruct (controls_spec s c Hc) as [v _ _ _ Hl' _|_ _ Hl' _|url _ Hin _ Hact].
  - cbn in Hl, Hl'. exfalso.
    in_cases Hl'; rewrite <- Hl' in Hl; in_cases Hl; discriminate.
  - rewrite Hl' in Hl. cbn in Hl. exfalso. in_cases Hl; discriminate.
  - exists url. split; [exact Hin|]. split; [exact Hin|].
    split; [cbn in Hin; in_cases Hin; injection Hin as _ <-; auto|].
    rewrite Hact. cbn [window_open activeSection opened storage].
    repeat (split; [reflexivity|]).
    split; [|split]; intros ->; vm_compute; reflexivity.
Qed.

Lemma external_link_opens_its_address_witness :
  let w := setActiveSection "exercises" (start []) in
  exists c, nth_error (controls (view (activeSection w))) 11 = Some c /\
            label c = "View Full Document" /\
            opened (action c w) =
              [("https://github.com/prabodh-dev1/programming-principles/blob/main/README.md",
                "_blank")] /\
            activeSection (action c w) = "exercises".
Proof.
  intros w.
  destruct (nth_error (controls (view (activeSection w))) 11) as [c|] eqn:Hc;
    [|vm_compute in Hc; discriminate].
  exists c. split; [reflexivity|].
  assert (Hl : label c = "View Full Document")
    by (vm_compute in Hc; injection Hc as <-; reflexivity).
  split; [assumption|].
  assert (Hin : In (label c)
                   ["View Source"; EmptyString; "View Full Document"; "Download Examples"])
    by (rewrite Hl; cbn; auto).
  destruct (proj2 (proj2 external_link_opens_its_address) _ c w (nth_error_In _ _ Hc) Hin)
    as (url & Hu & _ & _ & _ & Ho & Ha & _).
  rewrite Hl in Hu. cbn in Hu. in_cases Hu; try discriminate.
  injection Hu as <-. split; assumption.
Defined.

(** ** Reload and reachable states *)

(** C6.  A fresh load puts [overview] into the state cell whatever the
    browser holds; no event changes what the browser keeps across a reload;
    so after any run of events from the first load a reload leaves
    [overview] as the active tab, whichever tab was active before. *)
Theorem reload_resets_to_overview :
  (forall w, activeSection (load w) = "overview") /\
  (forall w ev, storage (step w ev) = storage w) /\
  (forall st evs,
     storage (run (start st) evs) = st /\
     activeSection (run (start st) (evs ++ [Reload])) = "overview") /\
  (forall v w, activeSection (step (setActiveSection v w) Reload) = "overview").
Proof.
  split; [reflexivity|]. split; [apply step_storage|].
  split; [|reflexivity].
  intros st evs. split.
  - rewrite run_storage. reflexivity.
  - rewrite run_snoc. reflexivity.
Qed.

(** C8.  The component has one state cell.  After any run of events from
    the first load (tab selections, the call to action, external links,
    reloads) it holds one of the four tab identifiers, and what the browser
    keeps is what it was.  From any state, one event either leaves the cell
    as it is or puts one of the four identifiers into it.  The two lists are
    constants of [App], no handler has them in its reach: whenever a run
    arrives at the Principles or the Exercises page, the cards are those of
    the lists as written.  The triggers of the source carry the four
    identifiers and no other value. *)
Theorem active_tab_is_always_a_tab :
  (forall st evs,
     In (activeSection (run (start st) evs)) tabIdentifiers /\
     storage (run (start st) evs) = st) /\
  (forall w ev,
     activeSection (step w ev) = activeSection w \/
     In (activeSection (step w ev)) tabIdentifiers) /\
  (forall st evs,
     let w := run (start st) evs in
     (activeSection w = "principles" ->
      findTagIn "Card" (view (activeSection w)) = mapi principleCard principles) /\
     (activeSection w = "exercises" ->
      firstn 6 (findTagIn "Card" (view (activeSection w))) = mapi exerciseCard exercises)) /\
  (forall s, map valueOf (filter (fun e => tagOf e =? "TabsTrigger") (subtrees (App s)))
             = map Some tabIdentifiers).
Proof.
  split; [|split; [apply step_activeSection|split]].
  - intros st evs. split.
    + apply run_activeSection. cbn. auto.
    + rewrite run_storage. reflexivity.
  - intros st evs w. split; intros ->; vm_compute; reflexivity.
  - intros s. reflexivity.
Qed.

(** ** Static content *)

(** C3.  The Principles page has exactly four cards, the cards of the four
    records in list order.  The title of each shows the record's full name
    and short name as they are stored, its paragraph is the description, and
    its benefit list is the record's list, in order; for DRY that is
    Maintainability, Readability, Reduced Bugs, Faster Development. *)
Theorem principles_page_shows_the_four_records :
  let cards := findTagIn "Card" (view "principles") in
  cards = mapi principleCard principles /\
  length cards = 4 /\
  Forall2 (fun card p =>
             map exprLeaves (findTag "CardTitle" card) = [[VStr p.(fullName); VStr p.(name)]] /\
             map textContent (findTag "CardTitle" card) = [(p.(fullName) ++ " (" ++ p.(name) ++ ")")%string] /\
             map textContent (findTag "p" card) = [p.(description)] /\
             benefitLabels card = p.(benefits))
          cards principles /\
  map name principles = ["DRY"; "KISS"; "SRP"; "SOLID"] /\
  option_map benefitLabels (nth_error cards 0) =
    Some ["Maintainability"; "Readability"; "Reduced Bugs"; "Faster Development"].
Proof.
  intros cards.
  assert (Hc : cards = mapi principleCard principles) by (vm_compute; reflexivity).
  split; [assumption|]. rewrite Hc.
  split; [reflexivity|]. split; [|split; reflexivity].
  unfold mapi, principles. cbn [mapi_from].
  repeat (apply Forall2_cons; [repeat split; vm_compute; reflexivity|]).
  apply Forall2_nil.
Qed.

(** What an exercise card shows of a record, whatever the record. *)
Lemma exerciseCard_shows (e : Exercise) (i : nat) :
  map textContent (findTag "Badge" (exerciseCard e i)) =
    [e.(principle); e.(language); e.(difficulty)] /\
  map textContent (findTag "h3" (exerciseCard e i)) = [e.(title)] /\
  map textContent (findTag "p" (exerciseCard e i)) = [e.(scenario)].
Proof.
  repeat split; reflexivity.
Qed.

(** C4.  The grid of the Exercises page holds exactly six cards, the cards
    of the six records in list order; the only other card of the page shows
    nothing computed and has no badge.  Each exercise card shows, in its
    badges, the record's principle, language and difficulty, and its title
    and scenario below, as they are stored; for the first record these are
    DRY, Python, Beginner, Data Validation. *)
Theorem exercises_page_shows_the_six_records :
  let page := view "exercises" in
  map kidsOf (exerciseGrid page) = [mapi exerciseCard exercises] /\
  length (mapi exerciseCard exercises) = 6 /\
  (exists extra, findTagIn "Card" page = mapi exerciseCard exercises ++ [extra] /\
                 exprLeaves extra = [] /\ findTag "Badge" extra = []) /\
  Forall2 (fun card e =>
             map textContent (findTag "Badge" card) =
               [e.(principle); e.(language); e.(difficulty)] /\
             map textContent (findTag "h3" card) = [e.(title)] /\
             map textContent (findTag "p" card) = [e.(scenario)])
          (mapi exerciseCard exercises) exercises /\
  option_map (fun card => (map textContent (findTag "Badge" card),
                           map textContent (findTag "h3" card)))
             (nth_error (mapi exerciseCard exercises) 0) =
    Some (["DRY"; "Python"; "Beginner"], ["Data Validation"]).
Proof.
  intros page. split; [vm_compute; reflexivity|].
  split; [reflexivity|]. split.
  - eexists. split; [vm_compute; reflexivity|]. split; reflexivity.
  - split; [|reflexivity].
    unfold mapi, exercises. cbn [mapi_from].
    repeat (apply Forall2_cons; [apply exerciseCard_shows|]).
    apply Forall2_nil.
Qed.

(** C9.  On the card of any exercise record the difficulty badge shows the
    difficulty; its variant is [default] exactly when the difficulty is the
    string [Beginner], and [destructive] for every other difficulty.  Of the
    six records the first two get [default] and the four Intermediate ones
    [destructive]. *)
Theorem difficulty_badge_variant :
  (forall e i,
     let badge := difficultyBadge (exerciseCard e i) in
     textContent badge = e.(difficulty) /\
     (stringProp "variant" badge = Some "default" <-> e.(difficulty) = "Beginner") /\
     (e.(difficulty) <> "Beginner" -> stringProp "variant" badge = Some "destructive")) /\
  map (fun card => (textContent (difficultyBadge card),
                    stringProp "variant" (difficultyBadge card)))
      (mapi exerciseCard exercises) =
    [("Beginner", Some "default"); ("Beginner", Some "default");
     ("Intermediate", Some "destructive"); ("Intermediate", Some "destructive");
     ("Intermediate", Some "destructive"); ("Intermediate", Some "destructive")].
Proof.
  split; [|reflexivity].
  intros e i badge.
  assert (Hv : stringProp "variant" badge =
               Some (if e.(difficulty) =? "Beginner" then "default" else "destructive"))
    by reflexivity.
  split; [reflexivity|]. rewrite Hv.
  destruct (String.eqb_spec e.(difficulty) "Beginner") as [Heq|Hne].
  - split; [split; auto | contradiction].
  - split; [split; [discriminate | contradiction] | reflexivity].
Qed.

(** C10.  Every exercise names a principle by the short name of one of the
    four principle records; the names used are DRY, KISS and SRP and no
    other; SOLID is the short name of a principle record and of no
    exercise. *)
Theorem exercises_name_three_of_the_principles :
  Forall (fun e => In e.(principle) (map name principles)) exercises /\
  (forall x, In x (map principle exercises) <-> In x ["DRY"; "KISS"; "SRP"]) /\
  In "SOLID" (map name principles) /\
  ~ In "SOLID" (map principle exercises).
Proof.
  split; [repeat (apply Forall_cons; [cbn; auto|]); apply Forall_nil|].
  split; [|split].
  - intros x. cbn. intuition.
  - cbn. auto.
  - cbn. intuition discriminate.
Qed.

(** ** What the cards compute *)

(** C7 fails as stated.  The card of the first principle record shows the
    number 1, computed from the position 0 of the record, so that the card
    reads [Essential principle #1], which is no field of the record; and the
    card of the third exercise record gives its difficulty badge the variant
    [destructive], chosen by a test on the difficulty [Intermediate], which
    is no field of that record either. *)
Lemma cards_show_computed_values :
  match nth_error principles 0, nth_error exercises 2 with
  | Some p, Some e =>
      In (VNum 1) (exprLeaves (principleCard p 0)) /\
      ~ In (VNum 1) (map VStr (principleFields p)) /\
      map textContent (findTag "CardDescription" (principleCard p 0)) =
        ["Essential principle #1"] /\
      ~ In "Essential principle #1" (principleFields p) /\
      In ("variant", VStr "destructive") (exprAttrs (exerciseCard e 2)) /\
      e.(difficulty) = "Intermediate" /\
      ~ In "destructive" (exerciseFields e)
  | _, _ => False
  end.
Proof.
  cbn -[In]. repeat split.
  - cbn. auto.
  - cbn. intuition discriminate.
  - cbn. intuition discriminate.
  - cbn. auto.
  - cbn. intuition discriminate.
Qed.

(** C7 as amended.  The values a card takes from expressions are, in this
    order: on the Principles page the full name, the short name, the number
    [index + 1], the description and the benefits; on the Overview page the
    short name, the full name, the description and the benefits; on an
    exercise card the principle, the language, the difficulty, the title and
    the scenario.  Every one but [index + 1] is the stored string itself.
    The attributes computed are the key, the class of the icon box (the
    colour put between two fixed strings) and the variant of the difficulty
    badge ([default] for [Beginner], [destructive] otherwise). *)
Theorem cards_show_fields_and_computed_values :
  (forall i p,
     nth_error principles i = Some p ->
     exprLeaves (principleCard p i) =
       [VStr p.(fullName); VStr p.(name); VNum (i + 1); VStr p.(description)]
       ++ map VStr p.(benefits) /\
     exprLeaves (overviewCard p) =
       [VStr p.(name); VStr p.(fullName); VStr p.(description)] ++ map VStr p.(benefits) /\
     exprAttrs (principleCard p i) =
       [("key", VStr p.(id));
        ("className", VStr ("w-12 h-12 " ++ p.(color) ++
                            " rounded-lg flex items-center justify-center text-white"))]
       ++ map (fun b => ("key", VStr b)) p.(benefits)) /\
  (forall e j,
     exprLeaves (exerciseCard e j) =
       map VStr [e.(principle); e.(language); e.(difficulty); e.(title); e.(scenario)] /\
     exprAttrs (exerciseCard e j) =
       [("key", VNum j);
        ("variant", VStr (if e.(difficulty) =? "Beginner" then "default" else "destructive"))]).
Proof.
  split.
  - intros i p Hp.
    do 4 (destruct i as [|i]; [injection Hp as <-; repeat split; reflexivity|]).
    destruct i; discriminate.
  - intros e j. split; reflexivity.
Qed.

Lemma cards_show_fields_and_computed_values_witness :
  exists p, nth_error principles 3 = Some p /\
            exprLeaves (principleCard p 3) =
              [VStr "SOLID Principles"; VStr "SOLID"; VNum 4; VStr p.(description)]
              ++ map VStr ["Robustness"; "Flexibility"; "Maintainability"; "Testability"].
Proof.
  eexists. split; [reflexivity|].
  exact (proj1 (proj1 cards_show_fields_and_computed_values 3 _ eq_refl)).
Defined.

(** * Further properties of the component *)

(** ** The navigation log *)

Lemma action_opened (s : string) (c : control) (w : World) :
  In c (controls (view s)) ->
  opened (action c w) = opened w \/
  exists url, (url = repoURL \/ url = readmeURL) /\
              opened (action c w) = opened w ++ [(url, "_blank")].
Proof.
  intros Hc.
  destruct (controls_spec s c Hc) as [v _ _ _ _ Hact|_ _ _ Hact|url _ Hin _ Hact];
    rewrite Hact; cbn; [left; reflexivity ..|].
  right. exists url. split; [|reflexivity].
  unfold linkTargets in Hin. cbn in Hin.
  destruct Hin as [H|[H|[H|[H|[]]]]]; injection H as _ <-; auto.
Qed.

Lemma step_opened (w : World) (ev : event) :
  opened (step w ev) = opened w \/
  exists n url, ev = Activate n /\ (url = repoURL \/ url = readmeURL) /\
                opened (step w ev) = opened w ++ [(url, "_blank")].
Proof.
  destruct ev as [n|]; cbn; [|left; reflexivity].
  destruct (nth_error _ n) as [c|] eqn:Hn; [|left; reflexivity].
  destruct (action_opened (activeSection w) c w (nth_error_In _ _ Hn)) as [H|(url & Hu & H)].
  - left; assumption.
  - right. exists n, url. auto.
Qed.

(** X1.  Whatever the user does from the first load, the site only ever
    opens the two GitHub addresses, and always in a new tab. *)
Theorem only_the_two_addresses_are_opened (st : list (string * string)) (evs : list event) :
  Forall (fun nav => In nav [(repoURL, "_blank"); (readmeURL, "_blank")])
         (opened (run (start st) evs)).
Proof.
  assert (H : forall w,
             Forall (fun nav => In nav [(repoURL, "_blank"); (readmeURL, "_blank")]) (opened w) ->
             Forall (fun nav => In nav [(repoURL, "_blank"); (readmeURL, "_blank")])
                    (opened (run w evs))).
  { induction evs as [|ev evs IH]; intros w Hw; cbn; [assumption|].
    apply IH.
    destruct (step_opened w ev) as [->|(n & url & _ & Hu & ->)]; [assumption|].
    apply Forall_app. split; [assumption|].
    constructor; [|constructor].
    destruct Hu as [->| ->]; cbn; auto. }
  apply H. constructor.
Qed.

(** X2.  The navigation log only grows: after any run of events from any
    state the old log is a prefix of the new one, and the part added has at
    most one entry per activation; reloads add none. *)
Theorem navigation_log_only_grows (w : World) (evs : list event) :
  exists added,
    opened (run w evs) = opened w ++ added /\
    length added <= activations evs.
Proof.
  revert w. induction evs as [|ev evs IH]; intros w.
  - exists []. cbn. rewrite app_nil_r. split; [reflexivity | lia].
  - cbn [run fold_left]. destruct (IH (step w ev)) as (added & Heq & Hlen).
    unfold run in Heq. rewrite Heq.
    destruct (step_opened w ev) as [->|(n & url & -> & _ & ->)].
    + exists added. split; [reflexivity|].
      destruct ev; cbn; lia.
    + exists ((url, "_blank") :: added). rewrite <- app_assoc.
      split; [reflexivity | cbn; lia].
Qed.

(** ** Tab triggers *)

Lemma step_trigger (w : World) (k : nat) (v : string) :
  nth_error tabIdentifiers k = Some v ->
  step w (Activate (S k)) = setActiveSection v w.
Proof.
  intros Hk. cbn [step]. rewrite controls_view.
  do 4 (destruct k as [|k]; [injection Hk as <-; reflexivity|]).
  destruct k; discriminate.
Qed.

(** X3.  On every page, whatever the state cell holds, the header link is
    control 0 and the four triggers are controls 1 to 4, in the order
    Overview, Principles, Exercises, Resources; activating trigger [k + 1]
    puts the k-th tab identifier into the state cell and changes nothing
    else.  So every tab is one activation away from every state. *)
Theorem triggers_are_on_every_page (w : World) (k : nat) (v : string) :
  nth_error tabIdentifiers k = Some v ->
  map label (firstn 5 (controls (view (activeSection w)))) =
    ["View Source"; "Overview"; "Principles"; "Exercises"; "Resources"] /\
  step w (Activate (S k)) =
    {| activeSection := v; opened := opened w; storage := storage w |}.
Proof.
  intros Hk. split.
  - rewrite controls_view. reflexivity.
  - apply step_trigger. assumption.
Qed.

Lemma triggers_are_on_every_page_witness :
  step (start []) (Activate 4) =
    {| activeSection := "resources"; opened := []; storage := [] |}.
Proof.
  exact (proj2 (triggers_are_on_every_page (start []) 3 "resources" eq_refl)).
Defined.

(** X4.  Tab selections compose as expected: of two selections in a row
    only the second counts, and selecting the tab that is already active
    leaves the whole state as it is. *)
Theorem last_tab_selection_wins (w : World) (i k : nat) (u v : string) :
  nth_error tabIdentifiers i = Some u ->
  nth_error tabIdentifiers k = Some v ->
  run w [Activate (S i); Activate (S k)] = run w [Activate (S k)] /\
  (activeSection w = v -> step w (Activate (S k)) = w).
Proof.
  intros Hi Hk. split.
  - cbn [run fold_left].
    rewrite (step_trigger w i u Hi), (step_trigger _ k v Hk), (step_trigger w k v Hk).
    reflexivity.
  - intros Hv. rewrite (step_trigger w k v Hk). destruct w; cbn in *. subst. reflexivity.
Qed.

Lemma last_tab_selection_wins_witness :
  run (start []) [Activate 2; Activate 1] = start [].
Proof.
  destruct (last_tab_selection_wins (start []) 1 0 "principles" "overview" eq_refl eq_refl)
    as (H1 & H2).
  rewrite H1. exact (H2 eq_refl).
Defined.

(** ** The controls and panels of a page, for any value of the state cell *)

Lemma panel_cases (s : string) :
  s = "overview" \/ s = "principles" \/ s = "exercises" \/ s = "resources" \/
  flat_map (panel s) panels = [].
Proof.
  destruct (String.eqb_spec "overview" s) as [<-|H1]; [auto|].
  destruct (String.eqb_spec "principles" s) as [<-|H2]; [auto|].
  destruct (String.eqb_spec "exercises" s) as [<-|H3]; [auto|].
  destruct (String.eqb_spec "resources" s) as [<-|H4]; [auto 6|].
  do 4 right. unfold panels, panel. cbn.
  apply String.eqb_neq in H1, H2, H3, H4. rewrite H1, H2, H3, H4. reflexivity.
Qed.

(** X5.  Which controls a page has, for every value of the state cell: the
    header link and the four triggers always; the call to action on the
    Overview page only; the six card links and the two collection buttons
    on the Exercises page only.  The Principles and Resources pages have no
    control of their own. *)
Theorem controls_of_every_page (s : string) :
  map label (controls (view s)) =
    ["View Source"; "Overview"; "Principles"; "Exercises"; "Resources"] ++
    (if s =? "overview" then ["Start Exercises"]
     else if s =? "exercises" then
       [EmptyString; EmptyString; EmptyString; EmptyString; EmptyString; EmptyString;
        "View Full Document"; "Download Examples"]
     else []).
Proof.
  rewrite controls_view.
  destruct (panel_cases s) as [->|[->|[->|[->|H]]]]; try reflexivity.
  rewrite H.
  destruct (String.eqb_spec s "overview") as [->|_]; [discriminate H|].
  destruct (String.eqb_spec s "exercises") as [->|_]; [discriminate H|].
  reflexivity.
Qed.

(** X6.  For every value of the state cell, the panels of the mounted page
    are the panels of [App] that carry this value: one panel for each of
    the four tab identifiers and none for any other string, while the
    triggers stay in place. *)
Theorem at_most_one_panel_is_shown (s : string) :
  shownPanels s = filter (fun t => option_eqb (valueOf t) (Some s)) panels /\
  (In s tabIdentifiers -> map valueOf (shownPanels s) = [Some s]) /\
  (~ In s tabIdentifiers -> shownPanels s = []) /\
  map textContent (findTagIn "TabsTrigger" (view s)) =
    ["Overview"; "Principles"; "Exercises"; "Resources"].
Proof.
  assert (Hsh : shownPanels s = filter (fun t => option_eqb (valueOf t) (Some s)) panels).
  { unfold shownPanels. rewrite view_shape.
    destruct (panel_cases s) as [->|[->|[->|[->|H]]]]; try (vm_compute; reflexivity).
    rewrite H. revert H. unfold panels, panel. cbn.
    destruct ("overview" =? s); [discriminate|].
    destruct ("principles" =? s); [discriminate|].
    destruct ("exercises" =? s); [discriminate|].
    destruct ("resources" =? s); [discriminate|].
    reflexivity. }
  split; [assumption|]. split; [|split].
  - intros Hs. cbn in Hs. in_cases Hs; vm_compute; reflexivity.
  - intros Hs. rewrite Hsh. unfold panels. cbn.
    destruct (String.eqb_spec "overview" s) as [<-|_]; [exfalso; apply Hs; cbn; auto|].
    destruct (String.eqb_spec "principles" s) as [<-|_]; [exfalso; apply Hs; cbn; auto|].
    destruct (String.eqb_spec "exercises" s) as [<-|_]; [exfalso; apply Hs; cbn; auto|].
    destruct (String.eqb_spec "resources" s) as [<-|_]; [exfalso; apply Hs; cbn; auto 6|].
    reflexivity.
  - rewrite view_shape.
    destruct (panel_cases s) as [->|[->|[->|[->|H]]]]; try (vm_compute; reflexivity).
    unfold findTagIn. cbn -[panel panels header footer tabsList findTag].
    rewrite app_nil_r. unfold findTag. cbn -[panel panels header footer tabsList].
    rewrite H. reflexivity.
Qed.

Lemma at_most_one_panel_is_shown_witness :
  shownPanels "settings" = [] /\ map valueOf (shownPanels "exercises") = [Some "exercises"].
Proof.
  split.
  - apply (proj1 (proj2 (proj2 (at_most_one_panel_is_shown "settings")))).
    cbn. intuition discriminate.
  - apply (proj1 (proj2 (at_most_one_panel_is_shown "exercises"))). cbn. auto.
Defined.

(** ** Lists rendered by [map] *)

Lemma mapi_from_length {A B : Type} (f : A -> nat -> B) (l : list A) (k : nat) :
  length (mapi_from k f l) = length l.
Proof.
  revert k. induction l as [|x l IH]; intros k; cbn; [reflexivity|].
  rewrite IH. reflexivity.
Qed.

Lemma nth_error_mapi_from {A B : Type} (f : A -> nat -> B) (l : list A) (k i : nat) :
  nth_error (mapi_from k f l) i = option_map (fun x => f x (k + i)) (nth_error l i).
Proof.
  revert k i. induction l as [|x l IH]; intros k [|i]; cbn; try reflexivity.
  - rewrite Nat.add_0_r. reflexivity.
  - rewrite IH. rewrite Nat.add_succ_r. reflexivity.
Qed.

Lemma map_mapi_from {A B C : Type} (g : B -> C) (f : A -> nat -> B) (l : list A) (k : nat) :
  map g (mapi_from k f l) = mapi_from k (fun x i => g (f x i)) l.
Proof.
  revert k. induction l as [|x l IH]; intros k; cbn; [reflexivity|].
  rewrite IH. reflexivity.
Qed.

Lemma mapi_from_index {A B : Type} (h : nat -> B) (l : list A) (k : nat) :
  mapi_from k (fun _ i => h i) l = map h (seq k (length l)).
Proof.
  revert k. induction l as [|x l IH]; intros k; cbn; [reflexivity|].
  rewrite IH. reflexivity.
Qed.

Lemma mapi_from_element {A B : Type} (h : A -> B) (l : list A) (k : nat) :
  mapi_from k (fun x _ => h x) l = map h l.
Proof.
  revert k. induction l as [|x l IH]; intros k; cbn; [reflexivity|].
  rewrite IH. reflexivity.
Qed.

(** X7.  The Exercises grid is generic in its data: for any list of
    exercise records [map] gives one card per record, in the order of the
    list; the card at position [i] has key [i], shows the five fields of the
    i-th record as they are stored, and carries exactly one control, which
    opens the README address in a new tab. *)
Theorem every_exercise_gets_its_card (l : list Exercise) :
  length (mapi exerciseCard l) = length l /\
  (forall i e,
     nth_error l i = Some e ->
     exists card,
       nth_error (mapi exerciseCard l) i = Some card /\
       keyOf card = Some (VNum i) /\
       map textContent (findTag "Badge" card) =
         [e.(principle); e.(language); e.(difficulty)] /\
       map textContent (findTag "h3" card) = [e.(title)] /\
       map textContent (findTag "p" card) = [e.(scenario)] /\
       forall w, map (fun c => action c w) (controlsIn None card) =
                 [window_open readmeURL "_blank" w]).
Proof.
  split; [apply mapi_from_length|].
  intros i e Hi. exists (exerciseCard e i). split.
  - unfold mapi. rewrite nth_error_mapi_from, Hi. reflexivity.
  - split; [reflexivity|].
    destruct (exerciseCard_shows e i) as (Hb & Ht & Hp).
    repeat split; assumption || reflexivity.
Qed.

Lemma every_exercise_gets_its_card_witness :
  exists card, nth_error (mapi exerciseCard exercises) 4 = Some card /\
               keyOf card = Some (VNum 4) /\
               map textContent (findTag "h3" card) = ["User Management"].
Proof.
  destruct (proj2 (every_exercise_gets_its_card exercises) 4 _ eq_refl)
    as (card & Hn & Hk & _ & Ht & _).
  exists card. repeat split; assumption.
Defined.

(** The keys of the cards are the positions, respectively the ids. *)
Lemma exercise_keys (l : list Exercise) :
  map keyOf (mapi exerciseCard l) = map (fun i => Some (VNum i)) (seq 0 (length l)).
Proof.
  unfold mapi. rewrite map_mapi_from.
  change (fun (x : Exercise) (i : nat) => keyOf (exerciseCard x i))
    with (fun (_ : Exercise) (i : nat) => Some (VNum i)).
  apply mapi_from_index.
Qed.

Lemma principle_keys (l : list Principle) :
  map keyOf (mapi principleCard l) = map (fun p => Some (VStr p.(id))) l /\
  map keyOf (map overviewCard l) = map (fun p => Some (VStr p.(id))) l.
Proof.
  split.
  - unfold mapi. rewrite map_mapi_from.
    change (fun (x : Principle) (i : nat) => keyOf (principleCard x i))
      with (fun (x : Principle) (_ : nat) => Some (VStr x.(id))).
    apply mapi_from_element.
  - rewrite map_map. reflexivity.
Qed.

Lemma NoDup_map_injective {A B : Type} (f : A -> B) (l : list A) :
  (forall x y, f x = f y -> x = y) -> NoDup l -> NoDup (map f l).
Proof.
  intros Hf Hl. induction Hl as [|x l Hx Hl IH]; cbn; constructor; [|assumption].
  intros Hin. apply in_map_iff in Hin. destruct Hin as (y & Hy & Hin).
  apply Hf in Hy. subst. contradiction.
Qed.

(** X8.  Siblings made by [map] never share a key.  The exercise cards are
    keyed by position, so this holds for any list of records; the principle
    cards of both pages are keyed by the record's id, so it holds for any
    list whose ids differ, as those of the four records do; the benefit
    badges and list items are keyed by the benefit itself, and no record
    names a benefit twice. *)
Theorem sibling_keys_are_distinct :
  (forall l : list Exercise, NoDup (map keyOf (mapi exerciseCard l))) /\
  (forall l : list Principle,
     NoDup (map id l) ->
     NoDup (map keyOf (mapi principleCard l)) /\ NoDup (map keyOf (map overviewCard l))) /\
  NoDup (map id principles) /\
  Forall (fun p =>
            map keyOf (findTag "Badge" (overviewCard p)) = map (fun b => Some (VStr b)) p.(benefits) /\
            (forall i, map keyOf (kidsOf (hd (Txt EmptyString) (findTag "ul" (principleCard p i)))) =
                       map (fun b => Some (VStr b)) p.(benefits)) /\
            NoDup p.(benefits))
         principles.
Proof.
  split; [|split; [|split]].
  - intros l. rewrite exercise_keys.
    apply NoDup_map_injective; [|apply seq_NoDup].
    intros x y H. injection H as H. assumption.
  - intros l Hl. destruct (principle_keys l) as (-> & ->).
    rewrite <- (map_map id (fun s => Some (VStr s))).
    split; (apply NoDup_map_injective; [|assumption]);
      intros x y H; injection H as H; assumption.
  - cbn. repeat constructor; cbn; intuition discriminate.
  - repeat (apply Forall_cons;
            [split; [reflexivity|split; [intros i; reflexivity|]];
             cbn; repeat constructor; cbn; intuition discriminate|]).
    apply Forall_nil.
Qed.

Lemma sibling_keys_are_distinct_witness :
  NoDup (map keyOf (mapi principleCard principles)).
Proof.
  destruct sibling_keys_are_distinct as (_ & H & Hids & _).
  exact (proj1 (H principles Hids)).
Defined.

(** ** Cards of an arbitrary principle record *)

Lemma filter_flat_map {A B : Type} (f : B -> bool) (g : A -> list B) (l : list A) :
  filter f (flat_map g l) = flat_map (fun x => filter f (g x)) l.
Proof.
  induction l as [|x l IH]; cbn; [reflexivity|].
  rewrite filter_app, IH. reflexivity.
Qed.

Lemma findTag_El (tag t : string) (ps : list (string * prop)) (kids : list elem) :
  findTag tag (El t ps kids) =
  (if t =? tag then [El t ps kids] else []) ++ flat_map (findTag tag) kids.
Proof.
  unfold findTag. cbn [subtrees filter tagOf].
  rewrite filter_flat_map. destruct (t =? tag); reflexivity.
Qed.

Lemma findTag_leaf (tag : string) (e : elem) :
  kidsOf e = [] -> (tagOf e =? tag) = false -> findTag tag e = [].
Proof.
  intros Hk Ht. destruct e as [s|v|t ps kids]; cbn [kidsOf tagOf] in Hk, Ht.
  - unfold findTag. cbn [subtrees filter tagOf]. rewrite Ht. reflexivity.
  - unfold findTag. cbn [subtrees filter tagOf]. rewrite Ht. reflexivity.
  - rewrite Hk, findTag_El, Ht. reflexivity.
Qed.

Lemma isIcon_inv (e : elem) :
  isIcon e = true -> kidsOf e = [] /\ In (tagOf e) lucideIcons.
Proof.
  destruct e as [s|v|t ps [|k kids]]; cbn [isIcon]; try discriminate.
  intros H. split; [reflexivity|].
  apply existsb_exists in H. destruct H as (x & Hx & Heq).
  apply String.eqb_eq in Heq. cbn [tagOf]. subst. assumption.
Qed.

Lemma findTag_icon (tag : string) (e : elem) :
  isIcon e = true -> existsb (String.eqb tag) lucideIcons = false -> findTag tag e = [].
Proof.
  intros He Ht. destruct (isIcon_inv e He) as (Hk & Hin).
  apply findTag_leaf; [assumption|].
  destruct (String.eqb_spec (tagOf e) tag) as [Heq|]; [|reflexivity].
  rewrite <- Heq in Ht.
  assert (existsb (String.eqb (tagOf e)) lucideIcons = true)
    by (apply existsb_exists; exists (tagOf e); split; [assumption | apply String.eqb_refl]).
  congruence.
Qed.

Lemma findTag_map_none {A : Type} (tag : string) (mk : A -> elem) (l : list A) :
  (forall b, findTag tag (mk b) = []) -> flat_map (findTag tag) (map mk l) = [].
Proof.
  intros H. induction l as [|b l IH]; cbn; [reflexivity|]. rewrite H, IH. reflexivity.
Qed.

Lemma findTag_map_all {A : Type} (tag : string) (mk : A -> elem) (l : list A) :
  (forall b, findTag tag (mk b) = [mk b]) -> flat_map (findTag tag) (map mk l) = map mk l.
Proof.
  intros H. induction l as [|b l IH]; cbn; [reflexivity|]. rewrite H, IH. reflexivity.
Qed.

Ltac find_tags :=
  repeat (rewrite findTag_El; cbn -[findTag]).

Ltac card_tags Hi :=
  find_tags;
  rewrite ?(findTag_icon _ _ Hi) by reflexivity;
  first [ rewrite findTag_map_all by (intros ?; find_tags; reflexivity)
        | rewrite findTag_map_none by (intros ?; find_tags; reflexivity) ];
  cbn; rewrite ?app_nil_r.

Lemma principleCard_line (p : Principle) (i : nat) :
  isIcon p.(icon) = true ->
  findTag "CardDescription" (principleCard p i) =
    [El "CardDescription" [] [Txt "Essential principle #"; Val (VNum (i + 1))]].
Proof.
  intros Hi. unfold principleCard. find_tags.
  rewrite (findTag_icon _ _ Hi) by reflexivity.
  rewrite findTag_map_none by (intros b; find_tags; reflexivity).
  reflexivity.
Qed.

(** X9.  The Principles page numbers its cards from 1, in list order: for
    any list of principle records whose icons are icon components, the
    lines under the titles read [Essential principle #1], [#2], ... up to
    the length of the list. *)
Theorem principle_cards_are_numbered_from_one (l : list Principle) :
  Forall (fun p => isIcon p.(icon) = true) l ->
  map textContent (findTagIn "CardDescription" (mapi principleCard l)) =
    map (fun n => ("Essential principle #" ++ NilEmpty.string_of_uint (Nat.to_uint n))%string)
        (seq 1 (length l)).
Proof.
  unfold mapi, findTagIn. generalize 0 as k.
  induction l as [|p l IH]; intros k Hl; [reflexivity|].
  inversion Hl as [|? ? Hp Hl']; subst.
  cbn [mapi_from flat_map length seq map].
  rewrite map_app, (principleCard_line p k Hp), (IH (S k) Hl').
  cbn [map app textContent String.concat valueText].
  rewrite Nat.add_1_r. reflexivity.
Qed.

Lemma principle_cards_are_numbered_from_one_witness :
  map textContent (findTagIn "CardDescription" (mapi principleCard principles)) =
    ["Essential principle #1"; "Essential principle #2";
     "Essential principle #3"; "Essential principle #4"].
Proof.
  apply (principle_cards_are_numbered_from_one principles).
  repeat constructor.
Defined.

(** X10.  The two cards of a principle agree.  For any record whose icon is
    an icon component, and at any position, the Overview card and the
    Principles card show the same short name, full name and description,
    the same benefits in the same order (as badges on one, as list items on
    the other) and the same icon. *)
Theorem both_cards_show_the_same_record (p : Principle) (i : nat) :
  isIcon p.(icon) = true ->
  map textContent (findTag "Badge" (overviewCard p)) = p.(benefits) /\
  benefitLabels (principleCard p i) = p.(benefits) /\
  map exprLeaves (findTag "CardTitle" (overviewCard p)) = [[VStr p.(name)]] /\
  map exprLeaves (findTag "CardDescription" (overviewCard p)) = [[VStr p.(fullName)]] /\
  map exprLeaves (findTag "CardTitle" (principleCard p i)) =
    [[VStr p.(fullName); VStr p.(name)]] /\
  map exprLeaves (findTag "p" (overviewCard p)) = [[VStr p.(description)]; []] /\
  map exprLeaves (findTag "p" (principleCard p i)) = [[VStr p.(description)]] /\
  findTag (tagOf p.(icon)) (overviewCard p) = [p.(icon)] /\
  In p.(icon) (findTag (tagOf p.(icon)) (principleCard p i)).
Proof.
  intros Hi.
  assert (Hmap : forall (mk : string -> elem) l,
             (forall b, textContent (mk b) = b) -> map textContent (map mk l) = l).
  { intros mk l H. rewrite map_map. rewrite (map_ext _ (fun b => b)) by assumption.
    apply map_id. }
  split; [|split; [|split; [|split; [|split; [|split; [|split]]]]]].
  - unfold overviewCard. card_tags Hi. apply Hmap. reflexivity.
  - unfold benefitLabels, principleCard. card_tags Hi. apply Hmap. reflexivity.
  - unfold overviewCard. card_tags Hi. reflexivity.
  - unfold overviewCard. card_tags Hi. reflexivity.
  - unfold principleCard. card_tags Hi. reflexivity.
  - unfold overviewCard. card_tags Hi. reflexivity.
  - unfold principleCard. card_tags Hi. reflexivity.
  - destruct (isIcon_inv _ Hi) as (Hk & Hin).
    destruct p.(icon) as [x|x|t ps kids] eqn:Hicon; cbn [tagOf kidsOf] in Hk, Hin;
      [cbn in Hin; intuition discriminate ..|].
    subst kids. unfold lucideIcons in Hin.
    split.
    + unfold overviewCard. rewrite Hicon. cbn in Hin.
      in_cases Hin; find_tags;
        rewrite findTag_map_none by (intros b; find_tags; reflexivity); reflexivity.
    + unfold principleCard. rewrite Hicon. cbn in Hin.
      in_cases Hin; find_tags;
        rewrite findTag_map_none by (intros b; find_tags; reflexivity);
        cbn; auto.
Qed.

Lemma both_cards_show_the_same_record_witness :
  exists p, nth_error principles 1 = Some p /\
            map textContent (findTag "Badge" (overviewCard p)) = benefitLabels (principleCard p 1).
Proof.
  eexists. split; [reflexivity|].
  destruct (both_cards_show_the_same_record
              {| id := "kiss"; name := "KISS"; fullName := "Keep It Simple, Stupid";
                 icon := El "Lightbulb" [className "w-6 h-6"] [];
                 color := "bg-green-500";
                 description := "Simplicity should be a key goal in design. Avoid unnecessary complexity and over-engineering.";
                 benefits := ["Readability"; "Reduced Bugs"; "Faster Development"; "Easier Maintenance"] |}
              1 eq_refl) as (H1 & H2 & _).
  rewrite H1, H2. reflexivity.
Defined.

(** ** Where computed content sits *)


(** ** Controls that do the same thing *)

(** X12.  Several controls are interchangeable.  On the Overview page the
    call to action does what the Exercises trigger does.  On the Exercises
    page the six card links and [View Full Document] all open the README
    address, and [Download Examples] does what the header's [View Source]
    does: it opens the repository address, on every page the same. *)
Theorem interchangeable_controls (w : World) :
  step w (Activate 0) = window_open repoURL "_blank" w /\
  (activeSection w = "overview" -> step w (Activate 5) = step w (Activate 3)) /\
  (activeSection w = "exercises" ->
   (forall n, 5 <= n <= 11 -> step w (Activate n) = window_open readmeURL "_blank" w) /\
   step w (Activate 12) = step w (Activate 0)).
Proof.
  split; [|split].
  - cbn [step]. rewrite controls_view. reflexivity.
  - intros Hs. cbn [step]. rewrite Hs. reflexivity.
  - intros Hs. split.
    + intros n Hn. cbn [step]. rewrite Hs.
      do 5 (destruct n as [|n]; [lia|]).
      do 7 (destruct n as [|n]; [reflexivity|]). lia.
    + cbn [step]. rewrite Hs. reflexivity.
Qed.

Lemma interchangeable_controls_witness :
  step (setActiveSection "exercises" (start [])) (Activate 7) =
    {| activeSection := "exercises"; opened := [(readmeURL, "_blank")]; storage := [] |}.
Proof.
  destruct (interchangeable_controls (setActiveSection "exercises" (start [])))
    as (_ & _ & H).
  apply (proj1 (H eq_refl) 7). lia.
Defined.
